(** * The counter of [src/App.tsx]

    A shallow embedding of the one implemented component of the
    boilerplate, [App], and of the part of the platform it runs on:

    - [JSNumber]: the [number] type of the language, IEEE 754 binary64,
      as the kernel's primitive floats;
    - [React]: element trees as JSX builds them, the effects a component or
      an event handler may perform, and their interpretation over a [world];
    - [App] itself, its click handler, and the counter machine they form. *)

From Stdlib Require Import ZArith NArith Lia List String Bool.
From Stdlib Require Import Floats Uint63 DecimalString DecimalZ.
Import ListNotations.

Local Open Scope string_scope.
Local Open Scope Z_scope.
Local Set Warnings "-register-all".

(** ** Numbers of the language *)

Module JSNumber.

(** A [number] is a double. *)
Definition number : Set := float.

(** The double nearest to the integer [n], for [0 <= n < 2^63] (an integer
    literal of the source, such as [0] and [1]). *)
Definition num (n : Z) : number := of_uint63 (Uint63.of_Z n).

(** [2^53]: up to here every integer is a double. *)
Definition two53 : Z := 9007199254740992.

(** [count + 1] of the source: binary64 addition, round to nearest even. *)
Definition add (x y : number) : number := (x + y)%float.

(** [q * 2^k] on binary positives. *)
Definition shl (q : positive) (k : nat) : positive := Nat.iter k xO q.

(** The integer a finite double stands for, when it is one. *)
Definition SF_integer (x : spec_float) : option Z :=
  match x with
  | S754_zero _ => Some 0
  | S754_finite s m e =>
      if 0 <=? e then Some (cond_Zopp s (Zpos m * 2 ^ e))
      else if Zpos m mod 2 ^ (- e) =? 0
           then Some (cond_Zopp s (Zpos m / 2 ^ (- e)))
           else None
  | S754_infinity _ | S754_nan => None
  end.

Definition number_value (x : number) : option Z := SF_integer (Prim2SF x).

Definition Z_to_string (z : Z) : string := NilZero.string_of_int (Z.to_int z).

(** [Number::toString] on the values whose digits are those of an
    integer: NaN, the zeros, the infinities and the integers of magnitude
    up to [2^53]. [None] elsewhere (fractions and larger magnitudes, whose
    shortest round-trip digits are not modelled). *)
Definition Number_toString (x : number) : option string :=
  match Prim2SF x with
  | S754_nan => Some "NaN"
  | S754_infinity false => Some "Infinity"
  | S754_infinity true => Some "-Infinity"
  | S754_zero _ => Some "0"
  | S754_finite _ _ _ =>
      match number_value x with
      | Some z => if Z.abs z <=? two53 then Some (Z_to_string z) else None
      | None => None
      end
  end.

End JSNumber.

Import JSNumber.

(** ** Elements, effects and their interpretation *)

Module React.

(** What code running in the page can do besides computing: the two
    operations of the [useState] hook, the network, persisted storage, the
    command line, and raising. *)
Inductive effect : Type -> Type :=
| UseState (initial : number) : effect number
| SetState (update : number -> number) : effect unit
| Fetch (url : string) : effect string
| StorageGet (key : string) : effect (option string)
| StorageSet (key value : string) : effect unit
| Argv : effect (list string)
| Throw (message : string) : effect Empty_set.

Inductive prog (A : Type) : Type :=
| Ret (a : A)
| Vis {X : Type} (e : effect X) (k : X -> prog A).

Arguments Ret {A} a.
Arguments Vis {A X} e k.

Fixpoint bind {A B : Type} (p : prog A) (f : A -> prog B) : prog B :=
  match p with
  | Ret a => f a
  | Vis e k => Vis e (fun x => bind (k x) f)
  end.

Definition trigger {X : Type} (e : effect X) : prog X := Vis e Ret.

(** [const [count, setCount] = useState(initial)]: the hook hands over the
    current state; the setter is [setState]. *)
Definition useState (initial : number) : prog number := trigger (UseState initial).
Definition setState (update : number -> number) : prog unit := trigger (SetState update).

(** A prop is a string attribute or an event handler. *)
Inductive prop : Type :=
| Str (s : string)
| Handler (h : prog unit).

(** What a JSX expression evaluates to: literal text, a number put in with
    braces, or an element with its props and children in source order. *)
Inductive node : Type :=
| Text (s : string)
| Num (n : number)
| Element (tag : string) (props : list (string * prop)) (children : list node).

(** The state a program runs against. [hook] is the memory cell of the
    component's single [useState] call, empty until the first render. *)
Record world : Type := {
  hook : option number;
  storage : string -> option string;
  network : string -> string;
  argv : list string
}.

Definition with_hook (h : option number) (w : world) : world :=
  {| hook := h; storage := storage w; network := network w; argv := argv w |}.

Definition with_storage (s : string -> option string) (w : world) : world :=
  {| hook := hook w; storage := s; network := network w; argv := argv w |}.

(** One effect against the world: its answer, or the message raised. *)
Definition handle {X : Type} (e : effect X) (w : world) : (X + string) * world :=
  match e in effect T return (T + string) * world with
  | UseState initial =>
      match hook w with
      | Some current => (inl current, w)
      | None => (inl initial, with_hook (Some initial) w)
      end
  | SetState update => (inl tt, with_hook (option_map update (hook w)) w)
  | Fetch url => (inl (network w url), w)
  | StorageGet key => (inl (storage w key), w)
  | StorageSet key value =>
      (inl tt, with_storage (fun k => if String.eqb k key then Some value else storage w k) w)
  | Argv => (inl (argv w), w)
  | Throw message => (inr message, w)
  end.

Inductive outcome (A : Type) : Type :=
| Returned (a : A) (w : world)
| Threw (message : string) (w : world).

Arguments Returned {A} a w.
Arguments Threw {A} message w.

Fixpoint run {A : Type} (p : prog A) (w : world) : outcome A :=
  match p with
  | Ret a => Returned a w
  | Vis e k =>
      match handle e w with
      | (inl x, w') => run (k x) w'
      | (inr message, w') => Threw message w'
      end
  end.

Definition world_of {A : Type} (o : outcome A) : world :=
  match o with Returned _ w | Threw _ w => w end.

(** A program that touches nothing but the component's own state. *)
Inductive local_only {A : Type} : prog A -> Prop :=
| local_ret (a : A) : local_only (Ret a)
| local_use (initial : number) (k : number -> prog A) :
    (forall x, local_only (k x)) -> local_only (Vis (UseState initial) k)
| local_set (update : number -> number) (k : unit -> prog A) :
    (forall x, local_only (k x)) -> local_only (Vis (SetState update) k).

(** *** Reading a tree *)

Fixpoint lookup_prop (name : string) (props : list (string * prop)) : option prop :=
  match props with
  | [] => None
  | (key, p) :: rest => if String.eqb key name then Some p else lookup_prop name rest
  end.

Definition props_of (n : node) : list (string * prop) :=
  match n with Element _ props _ => props | _ => [] end.

Definition children_of (n : node) : list node :=
  match n with Element _ _ children => children | _ => [] end.

Definition handler_of (name : string) (n : node) : option (prog unit) :=
  match lookup_prop name (props_of n) with
  | Some (Handler h) => Some h
  | _ => None
  end.

(** The elements with a given tag, in document order. *)
Fixpoint elements_by_tag (tag : string) (n : node) : list node :=
  match n with
  | Element t _ children =>
      ((if String.eqb t tag then [n] else []) ++ flat_map (elements_by_tag tag) children)%list
  | _ => []
  end.

(** The tags of all elements, in document order. *)
Fixpoint tags (n : node) : list string :=
  match n with
  | Element t _ children => t :: flat_map tags children
  | _ => []
  end.

(** The text the page shows for a tree: text children as they are, a
    number child through [Number_toString]. *)
Fixpoint textContent (n : node) : option string :=
  match n with
  | Text s => Some s
  | Num x => Number_toString x
  | Element _ _ children =>
      fold_right
        (fun child rest =>
           match textContent child, rest with
           | Some a, Some b => Some (a ++ b)%string
           | _, _ => None
           end)
        (Some EmptyString) children
  end.

(** The subtree at a path of child indices. *)
Fixpoint subtree (path : list nat) (n : node) : option node :=
  match path with
  | [] => Some n
  | i :: rest =>
      match nth_error (children_of n) i with
      | Some child => subtree rest child
      | None => None
      end
  end.

Fixpoint set_nth {A : Type} (i : nat) (x : A) (l : list A) : list A :=
  match l, i with
  | [], _ => []
  | _ :: t, O => x :: t
  | h :: t, S j => h :: set_nth j x t
  end.

(** The tree with the subtree at [path] replaced. *)
Fixpoint replace_at (path : list nat) (new : node) (n : node) : node :=
  match path with
  | [] => new
  | i :: rest =>
      match n with
      | Element t props children =>
          match nth_error children i with
          | Some child => Element t props (set_nth i (replace_at rest new child) children)
          | None => n
          end
      | _ => n
      end
  end.



(** A click on an element runs its [onClick] handler, if it has one. *)
Definition click (target : node) (w : world) : outcome unit :=
  match handler_of "onClick" target with
  | Some h => run h w
  | None => Returned tt w
  end.

End React.

Import React.

(** ** The component *)

Section Component.

(** [import viteLogo from '/vite.svg'] and
    [import reactLogo from '@/assets/react.svg']: the URLs the bundler
    resolves the two assets to. *)
Variables viteLogo reactLogo : string.

(** The arrow function given to the button:
    [() => setCount((count) => count + 1)]. *)
Definition onClick : prog unit :=
  setState (fun count => add count 1%float).

(** The JSX that [App] returns, for the current [count]. *)
Definition view (count : number) : node :=
  Element "div" [("className", Str "flex flex-col justify-center items-center min-h-screen gap-6")]
    [ Element "div" [("className", Str "flex gap-4")]
        [ Element "a" [("href", Str "https://vite.dev"); ("target", Str "_blank")]
            [ Element "img" [("src", Str viteLogo); ("className", Str "logo");
                             ("alt", Str "Vite logo")] [] ];
          Element "a" [("href", Str "https://react.dev"); ("target", Str "_blank")]
            [ Element "img" [("src", Str reactLogo); ("className", Str "logo react");
                             ("alt", Str "React logo")] [] ] ];
      Element "h1" [("className", Str "text-3xl font-bold")] [ Text "Vite + React" ];
      Element "div" [("className", Str "card p-4 rounded shadow-lg flex flex-col items-center gap-4")]
        [ Element "button"
            [("className", Str "px-4 py-2 bg-blue-500 text-white rounded hover:bg-blue-600");
             ("onClick", Handler onClick)]
            [ Text "count is "; Num count ];
          Element "p" []
            [ Text "Edit "; Element "code" [] [ Text "src/App.tsx" ];
              Text " and save to test HMR" ] ];
      Element "p" [("className", Str "read-the-docs text-gray-500")]
        [ Text "Click on the Vite and React logos to learn more" ] ].

(** [function App()]: read the state with [useState(0)], return the JSX. *)
Definition App : prog node :=
  bind (useState 0%float) (fun count => Ret (view count)).

(** *** The page as a machine *)

(** What a render of [App] puts on the page. *)
Definition render (w : world) : outcome node := run App w.

(** The first button of a tree, if any. *)
Definition the_button (ui : node) : option node := hd_error (elements_by_tag "button" ui).

(** The user clicks the button of the page as it is rendered in [w]. *)
Definition click_button (w : world) : outcome unit :=
  match render w with
  | Returned ui w' =>
      match the_button ui with
      | Some b => click b w'
      | None => Returned tt w'
      end
  | Threw message w' => Threw message w'
  end.

Definition step (w : world) : world := world_of (click_button w).

(** The page after the first render of [App] in a world where it was not
    rendered before. *)
Definition mount (w : world) : world := world_of (render (with_hook None w)).

(** [k] clicks after the first render. *)
Definition clicks (k : N) (w : world) : world := N.iter k step (mount w).

(** The states the page can be in. *)
Inductive reachable : world -> Prop :=
| reachable_mount (w : world) : reachable (mount w)
| reachable_step (w : world) : reachable w -> reachable (step w).

(** The count the page holds, as an integer. *)
Definition count_of (w : world) : option Z :=
  match hook w with
  | Some c => number_value c
  | None => None
  end.

(** The label of the button on the page rendered in [w]. *)
Definition label (w : world) : option string :=
  match render w with
  | Returned ui _ =>
      match the_button ui with
      | Some b => textContent b
      | None => None
      end
  | Threw _ _ => None
  end.

(** Where the parts of the page sit, as child indices from the root: the two
    logo links, the heading and the two paragraphs; and the number inside the
    button. *)
Definition static_parts : list (list nat) := [[0; 0]; [0; 1]; [1]; [2; 1]; [3]]%nat.
Definition count_path : list nat := [2; 0; 1]%nat.

Definition tag_of (n : node) : option string :=
  match n with Element t _ _ => Some t | _ => None end.

(** The tags that name elements of the page itself; any other tag would
    name a component. *)
Definition intrinsic_tags : list string := ["div"; "a"; "img"; "h1"; "button"; "p"; "code"].




(** The machine of any component [C] that shows a button: its first render,
    a click on its button, and the text its button shows. For [App] these
    are [mount], [step] and [label]. *)
Definition component_mount (C : prog node) (w : world) : world :=
  world_of (run C (with_hook None w)).

Definition component_click (C : prog node) (w : world) : outcome unit :=
  match run C w with
  | Returned ui w' =>
      match the_button ui with
      | Some b => click b w'
      | None => Returned tt w'
      end
  | Threw message w' => Threw message w'
  end.

Definition component_step (C : prog node) (w : world) : world :=
  world_of (component_click C w).

Definition component_label (C : prog node) (w : world) : option string :=
  match run C w with
  | Returned ui _ =>
      match the_button ui with
      | Some b => textContent b
      | None => None
      end
  | Threw _ _ => None
  end.


(** Two handlers running at once: at each moment either of them takes its
    next effect, and a handler that raises ends the run. The worlds all the
    schedules end in, leftmost choices first. *)
Fixpoint interleavings (p : prog unit) : prog unit -> world -> list world :=
  fix against (q : prog unit) (w : world) {struct q} : list world :=
    match p, q with
    | Ret _, Ret _ => [w]
    | _, _ =>
        (match p with
         | Vis e k =>
             match handle e w with
             | (inl x, w') => interleavings (k x) q w'
             | (inr _, w') => [w']
             end
         | Ret _ => []
         end
         ++
         match q with
         | Vis e k =>
             match handle e w with
             | (inl x, w') => against (k x) w'
             | (inr _, w') => [w']
             end
         | Ret _ => []
         end)%list
    end.

(** A blank world, for examples. *)
Definition blank : world := {|
  hook := None;
  storage := fun _ => None;
  network := fun _ => EmptyString;
  argv := []
|}.

(** *** The page over time *)

(** What happens to the page once it is shown: the user clicks the button,
    or the component function is called again for a new render. *)
Inductive event : Type :=
| Click
| Rerender.

Definition dispatch (e : event) (w : world) : world :=
  match e with
  | Click => step w
  | Rerender => world_of (render w)
  end.

Definition run_events (es : list event) (w : world) : world :=
  fold_left (fun w' e => dispatch e w') es w.

Fixpoint count_clicks (es : list event) : N :=
  match es with
  | [] => 0%N
  | Click :: rest => N.succ (count_clicks rest)
  | Rerender :: rest => count_clicks rest
  end.

(** [j] clicks on the button of a page [ui] that is already on the screen,
    handled one after the other before the component renders again: the
    handlers that run are those [ui] was built with. *)
Definition burst (ui : node) (j : N) (w : world) : world :=
  match the_button ui with
  | Some b => N.iter j (fun w' => world_of (click b w')) w
  | None => w
  end.


(** The nodes on the way from the root to the node at [path], root first. *)
Fixpoint path_nodes (path : list nat) (n : node) : option (list node) :=
  match path with
  | [] => Some [n]
  | i :: rest =>
      match nth_error (children_of n) i with
      | Some child => option_map (cons n) (path_nodes rest child)
      | None => None
      end
  end.

(** The [onClick] handlers of the given nodes, one after the other; a
    handler that raises ends the run. *)
Fixpoint run_handlers (targets : list node) (w : world) : outcome unit :=
  match targets with
  | [] => Returned tt w
  | e :: rest =>
      match click e w with
      | Returned _ w' => run_handlers rest w'
      | Threw message w' => Threw message w'
      end
  end.

(** A click on the node at [path] of the page [ui]: the event goes to that
    node and bubbles up through its ancestors to the root. A path that leads
    nowhere is a click on nothing. *)
Definition click_at (path : list nat) (ui : node) (w : world) : outcome unit :=
  match path_nodes path ui with
  | Some nodes => run_handlers (rev nodes) w
  | None => Returned tt w
  end.

Fixpoint starts_with (prefix path : list nat) : bool :=
  match prefix, path with
  | [], _ => true
  | i :: prefix', j :: path' => Nat.eqb i j && starts_with prefix' path'
  | _ :: _, [] => false
  end.

(** Where the button sits in the page. *)
Definition button_path : list nat := [2; 0]%nat.

(** * Properties *)

(** ** Integers as doubles *)

Lemma shl_S q k : shl q (S k) = xO (shl q k).
Proof. reflexivity. Qed.

Lemma shl_shl q j k : shl (shl q j) k = shl q (k + j).
Proof. unfold shl. now rewrite Nat.iter_add. Qed.

Lemma shl_plus p q k : (shl p k + shl q k = shl (p + q) k)%positive.
Proof.
  induction k as [|k IH]; [reflexivity|].
  rewrite !shl_S, <- IH. reflexivity.
Qed.

Lemma shl_value q k : Zpos (shl q k) = Zpos q * 2 ^ Z.of_nat k.
Proof.
  induction k as [|k IH].
  - simpl. lia.
  - rewrite shl_S, Nat2Z.inj_succ, Z.pow_succ_r by lia.
    change (Zpos (shl q k)~0) with (2 * Zpos (shl q k)). rewrite IH. ring.
Qed.

Lemma pos_iter_shl q p : Pos.iter xO q p = shl q (Pos.to_nat p).
Proof.
  unfold shl. rewrite Pos2Nat.inj_iter.
  generalize (Pos.to_nat p) as n. induction n; simpl; congruence.
Qed.

Lemma iter_pos_nat {A : Type} (f : A -> A) p x :
  iter_pos f p x = Nat.iter (Pos.to_nat p) f x.
Proof.
  assert (H : forall y, iter_pos f p y = Pos.iter f y p).
  { induction p as [p IH|p IH|]; intro y; simpl.
    - now rewrite !IH, !Pos.iter_swap.
    - now rewrite !IH.
    - reflexivity. }
  rewrite H, Pos2Nat.inj_iter. reflexivity.
Qed.

Lemma digits_shl q k :
  Zpos (digits2_pos (shl q k)) = Zpos (digits2_pos q) + Z.of_nat k.
Proof.
  induction k as [|k IH].
  - simpl. lia.
  - rewrite shl_S. simpl digits2_pos. rewrite Pos2Z.inj_succ, IH. lia.
Qed.

(** A positive with [d] binary digits is at least [2^(d-1)]. *)
Lemma digits_lower p : 2 ^ (Zpos (digits2_pos p) - 1) <= Zpos p.
Proof.
  induction p as [p IH|p IH|]; simpl digits2_pos.
  - rewrite Pos2Z.inj_succ.
    replace (Z.succ (Zpos (digits2_pos p)) - 1) with (Z.succ (Zpos (digits2_pos p) - 1)) by lia.
    rewrite Z.pow_succ_r by lia.
    revert IH. generalize (2 ^ (Zpos (digits2_pos p) - 1)). lia.
  - rewrite Pos2Z.inj_succ.
    replace (Z.succ (Zpos (digits2_pos p)) - 1) with (Z.succ (Zpos (digits2_pos p) - 1)) by lia.
    rewrite Z.pow_succ_r by lia.
    revert IH. generalize (2 ^ (Zpos (digits2_pos p) - 1)). lia.
  - simpl. lia.
Qed.

Lemma digits_le_53 p : Zpos p < two53 -> Zpos (digits2_pos p) <= 53.
Proof.
  intro H. pose proof (digits_lower p) as Hlo.
  destruct (Z_le_gt_dec (Zpos (digits2_pos p)) 53) as [|Hgt]; [assumption|exfalso].
  assert (2 ^ 53 <= 2 ^ (Zpos (digits2_pos p) - 1)) by (apply Z.pow_le_mono_r; lia).
  change two53 with (2 ^ 53) in H. lia.
Qed.

(** Shifting out [k] zero bits loses nothing. *)
Lemma shr_exact q k :
  Nat.iter k shr_1 {| shr_m := Zpos (shl q k); shr_r := false; shr_s := false |}
  = {| shr_m := Zpos q; shr_r := false; shr_s := false |}.
Proof.
  induction k as [|k IH]; [reflexivity|].
  rewrite Nat.iter_succ_r, shl_S. simpl shr_1. exact IH.
Qed.

Lemma shr_fexp_canonical mz ez :
  Zpos (digits2_pos mz) = 53 -> -1074 <= ez ->
  shr_fexp prec emax (Zpos mz) ez loc_Exact
  = ({| shr_m := Zpos mz; shr_r := false; shr_s := false |}, ez).
Proof.
  intros Hd He.
  unfold shr_fexp, fexp, Zdigits2. simpl shr_record_of_loc.
  rewrite Hd.
  replace (Z.max (53 + ez - prec) (SpecFloat.emin prec emax) - ez) with 0
    by (unfold prec, emax, SpecFloat.emin; lia).
  reflexivity.
Qed.

Lemma round_aux_canonical mz ez :
  Zpos (digits2_pos mz) = 53 -> -1074 <= ez <= 971 ->
  binary_round_aux prec emax false (Zpos mz) ez loc_Exact = S754_finite false mz ez.
Proof.
  intros Hd He.
  unfold binary_round_aux.
  rewrite shr_fexp_canonical by lia.
  simpl shr_m. simpl loc_of_shr_record. simpl round_nearest_even.
  rewrite shr_fexp_canonical by lia.
  simpl. replace (ez <=? 971) with true by (symmetry; apply Z.leb_le; lia).
  reflexivity.
Qed.

(** Rounding [m * 2^j * 2^e] where [m] has at most 53 digits: the mantissa
    is [m] moved up to 53 digits and nothing is lost. *)
Lemma binary_round_exact m j e :
  Zpos (digits2_pos m) <= 53 ->
  -1074 <= e + Z.of_nat j + Zpos (digits2_pos m) - 53 <= 971 ->
  binary_round prec emax false (shl m j) e
  = S754_finite false (shl m (Z.to_nat (53 - Zpos (digits2_pos m))))
                (e + Z.of_nat j + Zpos (digits2_pos m) - 53).
Proof.
  intros Hd He.
  set (d := Zpos (digits2_pos m)) in *.
  assert (Hd1 : 1 <= d) by (unfold d; lia).
  unfold binary_round, fexp. rewrite digits_shl. fold d.
  replace (Z.max (d + Z.of_nat j + e - prec) (SpecFloat.emin prec emax))
    with (d + Z.of_nat j + e - 53) by (unfold prec, emax, SpecFloat.emin; lia).
  unfold shl_align.
  destruct (Z.compare_spec (d + Z.of_nat j) 53) as [Heq|Hlt|Hgt].
  - replace (d + Z.of_nat j + e - 53 - e) with 0 by lia.
    rewrite round_aux_canonical.
    + f_equal; [|lia]. f_equal. lia.
    + rewrite digits_shl. fold d. lia.
    + lia.
  - remember (d + Z.of_nat j + e - 53 - e) as z eqn:Hz.
    destruct z as [|z|z]; try lia.
    rewrite pos_iter_shl, shl_shl, round_aux_canonical.
    + f_equal; [|lia]. f_equal. lia.
    + rewrite digits_shl. fold d. lia.
    + lia.
  - remember (d + Z.of_nat j + e - 53 - e) as z eqn:Hz.
    destruct z as [|z|z]; try lia.
    unfold binary_round_aux. unfold shr_fexp at 1. unfold fexp, Zdigits2.
    simpl shr_record_of_loc.
    rewrite digits_shl. fold d.
    replace (Z.max (d + Z.of_nat j + e - prec) (SpecFloat.emin prec emax) - e)
      with (Zpos z) by (unfold prec, emax, SpecFloat.emin; lia).
    unfold shr. rewrite iter_pos_nat.
    set (q := shl m (Z.to_nat (53 - d))).
    replace (shl m j) with (shl q (Pos.to_nat z))
      by (unfold q; rewrite shl_shl; f_equal; lia).
    rewrite shr_exact. simpl shr_m. simpl loc_of_shr_record. simpl round_nearest_even.
    assert (Hq : Zpos (digits2_pos q) = 53) by (unfold q; rewrite digits_shl; fold d; lia).
    rewrite shr_fexp_canonical by lia.
    simpl. replace (e + Zpos z <=? 971) with true by (symmetry; apply Z.leb_le; lia).
    f_equal. lia.
Qed.

Lemma Prim2SF_num p :
  Zpos p <= two53 -> Prim2SF (num (Zpos p)) = binary_round prec emax false p 0.
Proof.
  intro H. unfold num. rewrite of_uint63_spec, Uint63.of_Z_spec.
  rewrite Z.mod_small; [reflexivity|].
  unfold two53 in H. change wB with 9223372036854775808. lia.
Qed.

Lemma Prim2SF_num_shl m j :
  Zpos (digits2_pos m) <= 53 -> (j <= 53)%nat -> Zpos (shl m j) <= two53 ->
  Prim2SF (num (Zpos (shl m j)))
  = S754_finite false (shl m (Z.to_nat (53 - Zpos (digits2_pos m))))
                (Z.of_nat j + Zpos (digits2_pos m) - 53).
Proof.
  intros Hd Hj Hle. rewrite Prim2SF_num by assumption.
  rewrite binary_round_exact by lia. f_equal.
Qed.

Lemma Prim2SF_one : Prim2SF 1%float = S754_finite false (shl 1 52) (-52).
Proof. reflexivity. Qed.

Lemma add_one_SF p m j :
  Zpos p < two53 ->
  (p + 1 = shl m j)%positive -> Zpos (digits2_pos m) <= 53 -> (j <= 53)%nat ->
  Prim2SF (add (num (Zpos p)) 1%float) = Prim2SF (num (Zpos (shl m j))).
Proof.
  intros Hp Hmj Hd Hj.
  pose proof (digits_le_53 p Hp) as Hdp.
  unfold add. rewrite FloatAxioms.add_spec, Prim2SF_one.
  change p with (shl p 0) at 1.
  rewrite (Prim2SF_num_shl p 0 Hdp) by (simpl; lia).
  rewrite (Prim2SF_num_shl m j Hd Hj) by (rewrite <- Hmj; unfold two53 in *; lia).
  set (d := Zpos (digits2_pos p)) in *.
  assert (Hd1 : 1 <= d) by (unfold d; lia).
  unfold SF64add, SFadd.
  replace (Z.min (Z.of_nat 0 + d - 53) (-52)) with (-52) by lia.
  unfold cond_Zopp.
  assert (Hx : fst (shl_align (shl p (Z.to_nat (53 - d))) (Z.of_nat 0 + d - 53) (-52))
               = shl p 52).
  { unfold shl_align. remember (-52 - (Z.of_nat 0 + d - 53)) as z eqn:Hz.
    destruct z as [|z|z]; try lia; cbn [fst].
    - f_equal. lia.
    - rewrite pos_iter_shl, shl_shl. f_equal. lia. }
  rewrite Hx.
  replace (fst (shl_align (shl 1 52) (-52) (-52))) with (shl 1 52) by reflexivity.
  rewrite <- Pos2Z.inj_add, shl_plus, Hmj, shl_shl.
  unfold binary_normalize.
  rewrite binary_round_exact; [f_equal; lia | lia | lia].
Qed.

(** The successor of an integer below [2^53] has at most 53 digits, or is
    [2^53] itself. *)
Lemma succ_decomp p :
  Zpos p < two53 ->
  exists m j, (p + 1 = shl m j)%positive /\ Zpos (digits2_pos m) <= 53 /\ (j <= 53)%nat.
Proof.
  intro Hp.
  destruct (Z_lt_le_dec (Zpos (p + 1)) two53) as [Hlt|Hge].
  - exists (p + 1)%positive, 0%nat.
    split; [reflexivity|split; [now apply digits_le_53|lia]].
  - exists 1%positive, 53%nat. split; [|split; [simpl; lia|lia]].
    apply Pos2Z.inj. change (Zpos (shl 1 53)) with two53. lia.
Qed.

(** Below [2^53], adding one to a double is adding one to the integer. *)
Lemma add_one_exact n : 0 <= n < two53 -> add (num n) 1%float = num (n + 1).
Proof.
  intros [H0 H1]. destruct n as [|p|p]; [reflexivity| |lia].
  destruct (succ_decomp p H1) as (m & j & Hmj & Hd & Hj).
  apply Prim2SF_inj. rewrite (add_one_SF p m j H1 Hmj Hd Hj).
  rewrite <- Hmj. reflexivity.
Qed.

(** At [2^53] it is not: [2^53 + 1] lies half way between two doubles and
    rounds back to [2^53]. *)
Lemma add_one_limit : add (num two53) 1%float = num two53.
Proof. reflexivity. Qed.

Lemma number_value_num n : 0 <= n <= two53 -> number_value (num n) = Some n.
Proof.
  intros [H0 H1]. destruct n as [|p|p]; [reflexivity| |lia].
  destruct (Z.eq_dec (Zpos p) two53) as [->|Hne]; [reflexivity|].
  assert (Hp : Zpos p < two53) by lia.
  pose proof (digits_le_53 p Hp) as Hd.
  unfold number_value. change p with (shl p 0) at 1.
  rewrite (Prim2SF_num_shl p 0 Hd) by (simpl; lia).
  set (d := Zpos (digits2_pos p)) in *.
  assert (Hd1 : 1 <= d) by (unfold d; lia).
  unfold SF_integer, cond_Zopp. rewrite shl_value.
  rewrite Z2Nat.id by lia.
  destruct (Z.leb_spec 0 (Z.of_nat 0 + d - 53)) as [Hle|Hlt].
  - replace (53 - d) with 0 by lia. replace (Z.of_nat 0 + d - 53) with 0 by lia.
    f_equal. simpl. lia.
  - replace (- (Z.of_nat 0 + d - 53)) with (53 - d) by lia.
    assert (Hpow : 0 < 2 ^ (53 - d)) by (apply Z.pow_pos_nonneg; lia).
    rewrite Z_mod_mult, Z.eqb_refl, Z_div_mult by lia. reflexivity.
Qed.

Lemma Number_toString_num n :
  0 <= n <= two53 -> Number_toString (num n) = Some (Z_to_string n).
Proof.
  intros Hn. pose proof (number_value_num n Hn) as Hv.
  unfold Number_toString. rewrite Hv.
  unfold number_value in Hv.
  destruct (Prim2SF (num n)) as [s|s| |s m e]; simpl in Hv; try discriminate.
  - injection Hv as <-. reflexivity.
  - replace (Z.abs n <=? two53) with true; [reflexivity|].
    symmetry. apply Z.leb_le. lia.
Qed.


(** ** Renders and clicks *)

Lemma render_mounted w c : hook w = Some c -> render w = Returned (view c) w.
Proof. intro H. unfold render, App. simpl. rewrite H. reflexivity. Qed.

Lemma render_unmounted w :
  hook w = None -> render w = Returned (view 0%float) (with_hook (Some 0%float) w).
Proof. intro H. unfold render, App. simpl. rewrite H. reflexivity. Qed.

Lemma the_button_view c :
  the_button (view c)
  = Some (Element "button"
            [("className", Str "px-4 py-2 bg-blue-500 text-white rounded hover:bg-blue-600");
             ("onClick", Handler onClick)]
            [ Text "count is "; Num c ]).
Proof. reflexivity. Qed.

Lemma click_button_mounted w c :
  hook w = Some c -> click_button w = Returned tt (with_hook (Some (add c 1%float)) w).
Proof.
  intro H. unfold click_button. rewrite (render_mounted w c H), the_button_view.
  unfold click. simpl. rewrite H. reflexivity.
Qed.

Lemma click_button_unmounted w :
  hook w = None ->
  click_button w = Returned tt (with_hook (Some (add 0%float 1%float)) w).
Proof.
  intro H. unfold click_button. rewrite (render_unmounted w H), the_button_view.
  reflexivity.
Qed.

Lemma step_mounted w c : hook w = Some c -> step w = with_hook (Some (add c 1%float)) w.
Proof. intro H. unfold step. now rewrite (click_button_mounted w c H). Qed.

Lemma mount_eq w : mount w = with_hook (Some 0%float) w.
Proof. reflexivity. Qed.

Lemma clicks_succ k w : clicks (N.succ k) w = step (clicks k w).
Proof. unfold clicks. apply N.iter_succ. Qed.

(** After [k] clicks the cell holds [min k 2^53]; the rest of the world is
    as it was. *)
Lemma clicks_eq k w :
  clicks k w = with_hook (Some (num (Z.min (Z.of_N k) two53))) w.
Proof.
  induction k as [|k IH] using N.peano_ind.
  - reflexivity.
  - rewrite clicks_succ, IH.
    rewrite (step_mounted _ (num (Z.min (Z.of_N k) two53))) by reflexivity.
    unfold with_hook at 1. cbn [hook storage network argv with_hook].
    unfold with_hook. f_equal. f_equal.
    rewrite N2Z.inj_succ.
    destruct (Z_lt_le_dec (Z.of_N k) two53) as [Hlt|Hge].
    + rewrite !Z.min_l by lia. rewrite add_one_exact by lia. f_equal.
    + rewrite !Z.min_r by lia. apply add_one_limit.
Qed.

Lemma reachable_clicks w : reachable w <-> exists k w0, w = clicks k w0.
Proof.
  split.
  - induction 1 as [w0|w _ (k & w0 & ->)].
    + exists 0%N, w0. reflexivity.
    + exists (N.succ k), w0. symmetry. apply clicks_succ.
  - intros (k & w0 & ->). induction k as [|k IH] using N.peano_ind.
    + apply reachable_mount.
    + rewrite clicks_succ. now apply reachable_step.
Qed.

Lemma append_empty (s : string) : s ++ "" = s.
Proof. induction s as [|a s IH]; simpl; congruence. Qed.

Lemma count_of_num n w :
  0 <= n <= two53 -> count_of (with_hook (Some (num n)) w) = Some n.
Proof. intro H. unfold count_of. cbn [hook with_hook]. now apply number_value_num. Qed.

Lemma label_num n w :
  0 <= n <= two53 ->
  label (with_hook (Some (num n)) w) = Some ("count is " ++ Z_to_string n).
Proof.
  intro H. unfold label.
  rewrite (render_mounted _ (num n)) by reflexivity.
  rewrite the_button_view. cbn [textContent fold_right].
  rewrite (Number_toString_num n H), append_empty. reflexivity.
Qed.

Lemma reachable_count w :
  reachable w -> exists n, 0 <= n <= two53 /\ hook w = Some (num n).
Proof.
  intro H. apply reachable_clicks in H. destruct H as (k & w0 & ->).
  exists (Z.min (Z.of_N k) two53). split.
  - unfold two53. lia.
  - rewrite clicks_eq. reflexivity.
Qed.

Lemma step_frame w :
  storage (step w) = storage w /\ network (step w) = network w /\ argv (step w) = argv w.
Proof.
  unfold step. destruct (hook w) as [c|] eqn:H.
  - rewrite (click_button_mounted w c H). repeat split.
  - rewrite (click_button_unmounted w H). repeat split.
Qed.

Lemma hook_step w :
  hook (step w)
  = Some (add (match hook w with Some c => c | None => 0%float end) 1%float).
Proof.
  unfold step. destruct (hook w) as [c|] eqn:H.
  - now rewrite (click_button_mounted w c H).
  - now rewrite (click_button_unmounted w H).
Qed.

(** ** The claims *)

(** C1 (as amended). For every counter value [n], that is every integer from
    0 to [2^53], a click on the button takes the count from [n] to [n + 1]
    when [n] is below [2^53], and leaves it at [2^53] when [n] is [2^53]. *)
Theorem click_increments_count (w : world) (n : Z) :
  hook w = Some (num n) -> 0 <= n <= two53 ->
  count_of w = Some n
  /\ count_of (step w) = Some (if n <? two53 then n + 1 else n)
  /\ hook (step w) = Some (num (if n <? two53 then n + 1 else n)).
Proof.
  intros Hw Hn.
  assert (Hs : hook (step w) = Some (num (if n <? two53 then n + 1 else n))).
  { rewrite (step_mounted w (num n) Hw). cbn [hook with_hook]. f_equal.
    destruct (Z.ltb_spec n two53) as [Hlt|Hge].
    - apply add_one_exact. lia.
    - replace n with two53 by lia. apply add_one_limit. }
  unfold count_of. rewrite Hw, Hs.
  split; [now apply number_value_num|]. split; [|reflexivity].
  apply number_value_num. destruct (Z.ltb_spec n two53); lia.
Qed.

(** C2. A click changes nothing of the world but the count: storage, network
    and command line stay. The page rendered after the click is the page
    rendered before it with the number in the button replaced, and the two
    logo links, the heading and the two paragraphs are the same subtrees
    before and after, whatever the count was. *)
Theorem click_changes_only_count (w : world) :
  (storage (step w) = storage w /\ network (step w) = network w /\ argv (step w) = argv w)
  /\ exists before after c c',
      render w = Returned before (world_of (render w))
      /\ render (step w) = Returned after (step w)
      /\ hook (step w) = Some c'
      /\ subtree count_path before = Some (Num c)
      /\ after = replace_at count_path (Num c') before
      /\ map (fun p => subtree p after) static_parts
         = map (fun p => subtree p before) static_parts
      /\ map (fun p => match subtree p before with Some part => tag_of part | None => None end)
             static_parts
         = [Some "a"; Some "a"; Some "h1"; Some "p"; Some "p"].
Proof.
  split; [apply step_frame|].
  pose proof (hook_step w) as Hs.
  set (c' := add (match hook w with Some c => c | None => 0%float end) 1%float) in *.
  exists (view (match hook w with Some c => c | None => 0%float end)), (view c'),
    (match hook w with Some c => c | None => 0%float end), c'.
  split.
  { destruct (hook w) as [c|] eqn:H.
    - now rewrite (render_mounted w c H).
    - now rewrite (render_unmounted w H). }
  split; [now rewrite (render_mounted (step w) c' Hs)|].
  split; [exact Hs|].
  repeat split.
Qed.

(** C3. [App] has no error path: for every world, hence for every count,
    rendering returns a tree and the click handler returns; neither raises. *)
Theorem render_and_click_never_throw (w : world) :
  (exists ui w', render w = Returned ui w')
  /\ (exists w', click_button w = Returned tt w')
  /\ (forall message w', render w <> Threw message w')
  /\ (forall message w', click_button w <> Threw message w').
Proof.
  destruct (hook w) as [c|] eqn:H.
  - rewrite (render_mounted w c H), (click_button_mounted w c H).
    repeat split; eauto; discriminate.
  - rewrite (render_unmounted w H), (click_button_unmounted w H).
    repeat split; eauto; discriminate.
Qed.

(** C4. What [App] renders is a function of the count alone: two worlds that
    hold the same count render the same tree, whatever their network,
    storage and command line are. *)
Theorem render_depends_on_count_only (w1 w2 : world) :
  hook w1 = hook w2 ->
  exists ui,
    render w1 = Returned ui (world_of (render w1))
    /\ render w2 = Returned ui (world_of (render w2)).
Proof.
  intro H. destruct (hook w1) as [c|] eqn:H1; symmetry in H.
  - exists (view c). now rewrite (render_mounted w1 c H1), (render_mounted w2 c H).
  - exists (view 0%float). now rewrite (render_unmounted w1 H1), (render_unmounted w2 H).
Qed.

(** C5. The page is built by the one component: every tag in what [App]
    returns names an element of the page itself, and exactly one of them is a
    button. Its children are the text 'count is ' and the count, and for every
    count [n] the page can hold, after any number of clicks, it reads
    'count is ' followed by [n]. *)
Theorem one_button_labelled_with_count (c : number) (k : N) (w : world) :
  Forall (fun t => In t intrinsic_tags) (tags (view c))
  /\ (exists b, elements_by_tag "button" (view c) = [b]
                /\ children_of b = [Text "count is "; Num c])
  /\ exists n, count_of (clicks k w) = Some n
               /\ label (clicks k w) = Some ("count is " ++ Z_to_string n).
Proof.
  split; [|split].
  - cbn [tags view flat_map app]. unfold intrinsic_tags.
    repeat (apply Forall_cons; [cbn [In]; auto 10|]). apply Forall_nil.
  - eexists. split; reflexivity.
  - exists (Z.min (Z.of_N k) two53). rewrite clicks_eq.
    assert (Hn : 0 <= Z.min (Z.of_N k) two53 <= two53) by (unfold two53; lia).
    split; [now apply count_of_num | now apply label_num].
Qed.









(** The machine of a component, taken at [App], is the machine of the page. *)
Lemma component_machine_of_App w :
  component_mount App w = mount w
  /\ component_step App w = step w
  /\ component_label App w = label w.
Proof. repeat split. Qed.


(** C7. Nothing in [App] is concurrent, asynchronous or shared: rendering and
    the click handler perform no effect but those of the component's own
    state cell, every change they make to the world is a change of that
    cell, and two click handlers running at once cannot disturb each other:
    whichever way their effects are scheduled, the world ends where running
    one handler after the other ends. *)
Theorem state_is_local_and_clicks_do_not_interleave (w : world) :
  local_only App /\ local_only onClick
  /\ (storage (world_of (render w)) = storage w
      /\ network (world_of (render w)) = network w
      /\ argv (world_of (render w)) = argv w)
  /\ (storage (step w) = storage w /\ network (step w) = network w /\ argv (step w) = argv w)
  /\ Forall (fun w' => w' = world_of (run onClick (world_of (run onClick w))))
            (interleavings onClick onClick w)
  /\ interleavings onClick onClick w <> [].
Proof.
  split; [|split; [|split; [|split; [|split]]]].
  - apply local_use. intro x. apply local_ret.
  - apply local_set. intro x. apply local_ret.
  - unfold render, App. simpl. destruct (hook w); repeat split.
  - apply step_frame.
  - cbn. repeat constructor.
  - cbn. discriminate.
Qed.

(** C8. The counter starts at 0: the first render, before any click, leaves
    the count state at 0, and the button it shows reads 'count is 0'. *)
Theorem initial_count_is_zero (w : world) :
  hook (mount w) = Some 0%float
  /\ count_of (mount w) = Some 0
  /\ label (with_hook None w) = Some "count is 0"
  /\ label (mount w) = Some "count is 0".
Proof. repeat split. Qed.

(** C9 (as amended). After [k] clicks from the first render the count is
    [min k 2^53]: it equals [k] for every [k] up to [2^53] and stays at
    [2^53] from there on. In every state the page can reach the count is
    non-negative, and a further click does not decrease it. *)
Theorem count_after_clicks (k : N) (w : world) :
  count_of (clicks k w) = Some (Z.min (Z.of_N k) two53)
  /\ reachable (clicks k w)
  /\ exists n n',
      count_of (clicks k w) = Some n
      /\ count_of (step (clicks k w)) = Some n'
      /\ 0 <= n <= n'.
Proof.
  assert (Hk : forall j, count_of (clicks j w) = Some (Z.min (Z.of_N j) two53)).
  { intro j. rewrite clicks_eq. apply count_of_num. unfold two53. lia. }
  split; [apply Hk|]. split; [apply reachable_clicks; eauto|].
  exists (Z.min (Z.of_N k) two53), (Z.min (Z.of_N (N.succ k)) two53).
  split; [apply Hk|]. split; [rewrite <- clicks_succ; apply Hk|].
  unfold two53. lia.
Qed.


(** ** More on the page *)

Lemma clicks_add j k w : clicks (k + j) w = N.iter j step (clicks k w).
Proof. unfold clicks. rewrite N.add_comm. apply N.iter_add. Qed.

Lemma render_clicks k w : world_of (render (clicks k w)) = clicks k w.
Proof.
  rewrite clicks_eq.
  rewrite (render_mounted _ (num (Z.min (Z.of_N k) two53))) by reflexivity.
  reflexivity.
Qed.

Lemma run_events_clicks es : forall k w,
  run_events es (clicks k w) = clicks (k + count_clicks es) w.
Proof.
  induction es as [|[|] es IH]; intros k w; cbn [run_events fold_left count_clicks dispatch].
  - now rewrite N.add_0_r.
  - rewrite <- clicks_succ. fold (run_events es (clicks (N.succ k) w)).
    rewrite IH. f_equal. lia.
  - rewrite render_clicks. apply IH.
Qed.

(** X1. Renders do not touch the count and clicks add up: after any sequence
    of clicks and renders that follows the first render, the page is in the
    state of as many clicks as the sequence has, whatever renders came in
    between; the count is that number (up to [2^53]) and the button shows
    it. The initial value 0 of [useState(0)] is used by the first render
    only. *)
Theorem renders_keep_the_count (es : list event) (w : world) :
  run_events es (mount w) = clicks (count_clicks es) w
  /\ count_of (run_events es (mount w)) = Some (Z.min (Z.of_N (count_clicks es)) two53)
  /\ label (run_events es (mount w))
     = Some ("count is " ++ Z_to_string (Z.min (Z.of_N (count_clicks es)) two53)).
Proof.
  assert (H : run_events es (mount w) = clicks (count_clicks es) w).
  { change (mount w) with (clicks 0 w). now rewrite run_events_clicks. }
  rewrite H, clicks_eq.
  assert (Hn : 0 <= Z.min (Z.of_N (count_clicks es)) two53 <= two53) by (unfold two53; lia).
  split; [reflexivity|]. split; [now apply count_of_num | now apply label_num].
Qed.

Lemma click_the_button c_old w c :
  hook w = Some c ->
  forall b, the_button (view c_old) = Some b -> world_of (click b w) = step w.
Proof.
  intros H b Hb. rewrite the_button_view in Hb. injection Hb as <-.
  rewrite (step_mounted w c H). unfold click. simpl. rewrite H. reflexivity.
Qed.

(** X2. The click handler does not depend on the render it was created in:
    [j] clicks handled on the button of a page rendered for any earlier
    count, with no render in between, take the page from the state of [k]
    clicks to the state of [k + j] clicks, as [j] clicks each followed by a
    render do. No click is lost to a stale [count]. *)
Theorem clicks_on_a_stale_page_all_count (c_old : number) (j k : N) (w : world) :
  burst (view c_old) j (clicks k w) = clicks (k + j) w
  /\ count_of (burst (view c_old) j (clicks k w)) = Some (Z.min (Z.of_N (k + j)) two53).
Proof.
  assert (H : burst (view c_old) j (clicks k w) = clicks (k + j) w).
  { unfold burst. destruct (the_button (view c_old)) as [b|] eqn:Hb.
    - induction j as [|j IH] using N.peano_ind.
      + now rewrite N.add_0_r.
      + rewrite N.iter_succ, IH, N.add_succ_r, clicks_succ.
        apply (click_the_button c_old _ (num (Z.min (Z.of_N (k + j)) two53))); [|exact Hb].
        rewrite clicks_eq. reflexivity.
    - rewrite the_button_view in Hb. discriminate. }
  split; [exact H|]. rewrite H, clicks_eq. apply count_of_num. unfold two53. lia.
Qed.




(** Follows a path into a concrete tree, one index at a time. *)
Ltac walk_path :=
  repeat (cbn [path_nodes subtree nth_error children_of view option_map];
          match goal with
          | |- context [nth_error _ ?i] => is_var i; destruct i
          | |- context [path_nodes ?p _] => is_var p; destruct p
          | |- context [subtree ?p _] => is_var p; destruct p
          end).

(** X5. A click anywhere on the page, with the event bubbling from the node
    clicked up to the root: on the button or on what is inside it, the
    handler runs exactly once; anywhere else, or at a place that is not on
    the page, nothing runs and the world stays as it is. *)
Theorem click_anywhere (c : number) (path : list nat) (w : world) :
  click_at path (view c) w
  = match subtree path (view c) with
    | Some _ => if starts_with button_path path then run onClick w else Returned tt w
    | None => Returned tt w
    end.
Proof. unfold click_at, button_path. walk_path; reflexivity. Qed.

Lemma Z_to_int_proper z : Z.to_int z <> Decimal.Pos Decimal.Nil /\ Z.to_int z <> Decimal.Neg Decimal.Nil.
Proof.
  destruct z as [|p|p]; cbn [Z.to_int]; split; try discriminate;
    intros [= H]; exact (DecimalPos.Unsigned.to_uint_nonnil p H).
Qed.

Lemma Z_to_string_inj a b : Z_to_string a = Z_to_string b -> a = b.
Proof.
  unfold Z_to_string. intro H.
  apply (f_equal NilZero.int_of_string) in H.
  destruct (Z_to_int_proper a) as [Ha1 Ha2]. destruct (Z_to_int_proper b) as [Hb1 Hb2].
  rewrite !NilZero.isi in H by assumption.
  injection H as H. apply (f_equal Z.of_int) in H. now rewrite !DecimalZ.of_to in H.
Qed.

(** X4. The button text tells the count: two states of the page, each reached
    by clicks, that show the same text on the button hold the same count. *)
Theorem same_label_same_count (j k : N) (w1 w2 : world) :
  label (clicks j w1) = label (clicks k w2) ->
  count_of (clicks j w1) = count_of (clicks k w2).
Proof.
  rewrite !clicks_eq.
  assert (Hj : 0 <= Z.min (Z.of_N j) two53 <= two53) by (unfold two53; lia).
  assert (Hk : 0 <= Z.min (Z.of_N k) two53 <= two53) by (unfold two53; lia).
  rewrite !label_num, !count_of_num by assumption.
  intro H. injection H as H. apply Z_to_string_inj in H. now rewrite H.
Qed.

End Component.

(** ** Instances

    The theorems above at concrete worlds, with the two assets at the URLs
    the development server gives them. *)

(** C1, an instance: from count 41 a click leads to count 42. *)
Lemma click_increments_count_at_41 :
  count_of (with_hook (Some (num 41)) blank) = Some 41
  /\ count_of (step "/vite.svg" "/src/assets/react.svg" (with_hook (Some (num 41)) blank))
     = Some (if 41 <? two53 then 41 + 1 else 41)
  /\ hook (step "/vite.svg" "/src/assets/react.svg" (with_hook (Some (num 41)) blank))
     = Some (num (if 41 <? two53 then 41 + 1 else 41)).
Proof.
  apply (click_increments_count "/vite.svg" "/src/assets/react.svg"
           (with_hook (Some (num 41)) blank) 41).
  - reflexivity.
  - unfold two53. lia.
Defined.

(** C1 as stated fails at the count [2^53], which the page reaches after
    [2^53] clicks: one more click leaves the count at [2^53], not at
    [2^53 + 1]. *)
Lemma click_at_two53_keeps_count :
  reachable "/vite.svg" "/src/assets/react.svg" (with_hook (Some (num two53)) blank)
  /\ count_of (with_hook (Some (num two53)) blank) = Some two53
  /\ count_of (step "/vite.svg" "/src/assets/react.svg" (with_hook (Some (num two53)) blank))
     = Some two53
  /\ count_of (step "/vite.svg" "/src/assets/react.svg" (with_hook (Some (num two53)) blank))
     <> Some (two53 + 1).
Proof.
  split.
  - apply reachable_clicks. exists 9007199254740992%N, blank.
    rewrite clicks_eq. reflexivity.
  - rewrite (step_mounted _ _ _ (num two53)) by reflexivity.
    cbn [count_of hook with_hook]. rewrite add_one_limit.
    rewrite (number_value_num two53) by (unfold two53; lia).
    repeat split. intro H. injection H as H. unfold two53 in H. lia.
Qed.

(** C4, an instance: a world with a network, stored data and arguments
    renders what the blank world renders. *)
Lemma render_depends_on_count_only_example :
  exists ui,
    render "/vite.svg" "/src/assets/react.svg" blank
    = Returned ui (world_of (render "/vite.svg" "/src/assets/react.svg" blank))
    /\ render "/vite.svg" "/src/assets/react.svg"
         {| hook := None; storage := fun _ => Some "42";
            network := fun url => url; argv := ["--count"; "7"] |}
       = Returned ui
           (world_of (render "/vite.svg" "/src/assets/react.svg"
                        {| hook := None; storage := fun _ => Some "42";
                           network := fun url => url; argv := ["--count"; "7"] |})).
Proof.
  apply (render_depends_on_count_only "/vite.svg" "/src/assets/react.svg" blank
           {| hook := None; storage := fun _ => Some "42";
              network := fun url => url; argv := ["--count"; "7"] |}).
  reflexivity.
Defined.

(** C9 as stated fails for [k = 2^53 + 1] clicks: the count is then [2^53]. *)
Lemma count_after_two53_plus_one_clicks :
  count_of (clicks "/vite.svg" "/src/assets/react.svg" 9007199254740993 blank)
  = Some 9007199254740992
  /\ count_of (clicks "/vite.svg" "/src/assets/react.svg" 9007199254740993 blank)
     <> Some 9007199254740993.
Proof.
  rewrite clicks_eq.
  rewrite count_of_num by (unfold two53; lia).
  split; [reflexivity | discriminate].
Qed.


(** X4, an instance: after three clicks each, two pages in different
    surroundings show the same text and hold the same count. *)
Lemma same_label_same_count_example :
  count_of (clicks "/vite.svg" "/src/assets/react.svg" 3 blank)
  = count_of (clicks "/vite.svg" "/src/assets/react.svg" 3
                {| hook := Some 9%float; storage := fun _ => Some "42";
                   network := fun url => url; argv := ["--count"; "7"] |}).
Proof.
  apply (same_label_same_count "/vite.svg" "/src/assets/react.svg" 3 3 blank
           {| hook := Some 9%float; storage := fun _ => Some "42";
              network := fun url => url; argv := ["--count"; "7"] |}).
  reflexivity.
Defined.

(** A few runs of the model. *)

Example label_after_three_clicks :
  label "/vite.svg" "/src/assets/react.svg" (clicks "/vite.svg" "/src/assets/react.svg" 3 blank)
  = Some "count is 3".
Proof. reflexivity. Qed.

Example last_exact_increment : add (num (two53 - 1)) 1%float = num two53.
Proof. reflexivity. Qed.

Example label_at_two53 :
  label "/vite.svg" "/src/assets/react.svg"
    (step "/vite.svg" "/src/assets/react.svg" (with_hook (Some (num two53)) blank))
  = Some "count is 9007199254740992".
Proof. vm_compute. reflexivity. Qed.

Example two_clicks_at_once :
  map hook (interleavings onClick onClick (with_hook (Some 5%float) blank))
  = [Some 7%float; Some 7%float].
Proof. reflexivity. Qed.

Example click_on_the_number_counts_once :
  world_of (click_at [2; 0; 1]%nat (view "/vite.svg" "/src/assets/react.svg" 5%float)
              (with_hook (Some 5%float) blank))
  = with_hook (Some 6%float) blank.
Proof. reflexivity. Qed.

Example clicks_between_renders :
  count_of (run_events "/vite.svg" "/src/assets/react.svg"
              [Click; Rerender; Rerender; Click; Click; Rerender]
              (mount "/vite.svg" "/src/assets/react.svg" blank))
  = Some 3.
Proof. reflexivity. Qed.
